(** * danger-js: the GitHub issue template

    A shallow embedding of [source/runner/templates/githubIssueTemplate.ts]
    and the properties of the report text it produces.

    Conventions of the embedding.
    - A JavaScript string is a [string]; one [ascii] stands for one code
      unit.  Every function below treats code units uniformly, except the
      markdown test, whose character class is made of ASCII characters.
    - A JavaScript [number] that holds an integer (a list length, an index,
      a line number) is a [Z]; it is printed in decimal, as the template
      literal does for integers.
    - An optional field ([file?], [line?], [icon?], [meta?]) and an optional
      argument ([commitID?]) is an [option]; [None] is [undefined]. *)

From Stdlib Require Import String Ascii List ZArith Lia Bool DecimalString.
Import ListNotations.
Open Scope string_scope.

(** ** JavaScript primitives used by the template *)

Module JS.

(** The line feed of a template literal that spans several lines. *)
Definition LF : string := String (ascii_of_nat 10) EmptyString.

(** The double quote character. *)
Definition DQ : string := String (ascii_of_nat 34) EmptyString.

(** [quoted s] is [s] between double quotes. *)
Definition quoted (s : string) : string := DQ ++ s ++ DQ.

(** [`${n}`] for an integer [n]: its decimal digits, after a minus sign when
    it is negative (what JavaScript prints for an integer below 10^21 in
    absolute value). *)
Definition numberToString (n : Z) : string :=
  NilEmpty.string_of_int (Z.to_int n).

(** [arr.length] *)
Definition len {A : Type} (arr : list A) : Z := Z.of_nat (List.length arr).

(** [s.length] *)
Definition size (s : string) : Z := Z.of_nat (String.length s).

(** [!s] for a string: only the empty string is falsy. *)
Definition isFalsy (s : string) : bool :=
  match s with
  | EmptyString => true
  | String _ _ => false
  end.

(** [o || d] for an optional string [o]: [undefined] and the empty string
    are falsy. *)
Definition orElse (o : option string) (d : string) : string :=
  match o with
  | Some s => if isFalsy s then d else s
  | None => d
  end.

(** [`${o}`] for an optional string. *)
Definition show (o : option string) : string :=
  match o with
  | Some s => s
  | None => "undefined"
  end.

(** [`${o}`] for an optional number. *)
Definition showNumber (o : option Z) : string :=
  match o with
  | Some n => numberToString n
  | None => "undefined"
  end.

(** [arr.join(sep)] *)
Definition join (sep : string) (arr : list string) : string :=
  String.concat sep arr.

(** A template literal written line by line. *)
Definition lines (ls : list string) : string := join LF ls.

(** [arr.every(p)] *)
Definition every {A : Type} (p : A -> bool) (arr : list A) : bool :=
  forallb p arr.

(** [arr.reduce((acc, value, idx) => f acc value idx, init)]; [idx] is the
    position of [value] in [arr]. *)
Fixpoint reduceFrom {A B : Type} (f : B -> A -> Z -> B) (idx : Z)
         (acc : B) (arr : list A) : B :=
  match arr with
  | [] => acc
  | value :: rest => reduceFrom f (idx + 1) (f acc value idx) rest
  end.

Definition reduce {A B : Type} (f : B -> A -> Z -> B) (init : B)
           (arr : list A) : B :=
  reduceFrom f 0 init arr.

(** [s.substr(start, count)]: at most [count] code units from [start]; a
    negative [start] counts from the end. *)
Definition substr (s : string) (start count : Z) : string :=
  let intStart :=
    if (start <? 0)%Z then Z.max (size s + start) 0 else Z.min start (size s) in
  let intLength := Z.min (Z.max count 0) (size s) in
  let intEnd := Z.min (intStart + intLength) (size s) in
  substring (Z.to_nat intStart) (Z.to_nat (intEnd - intStart)) s.

(** [s.startsWith(p)] *)
Definition startsWith (s p : string) : bool := String.prefix p s.

(** [s.includes(needle)] *)
Fixpoint includes (s needle : string) : bool :=
  startsWith s needle ||
  match s with
  | EmptyString => false
  | String _ s' => includes s' needle
  end.

End JS.

Import JS.

(** ** Text relations in which the properties are stated *)

Definition StartsWith (s p : string) : Prop := exists post, s = p ++ post.
Definition EndsWith (s p : string) : Prop := exists pre, s = pre ++ p.
Definition Contains (s needle : string) : Prop :=
  exists pre post, s = pre ++ needle ++ post.

(** ** Data model *)

(** [Violation] of [dsl/Violation.ts]. *)
Record Violation : Type := mkViolation {
  message : string;
  file : option string;
  line : option Z;
  icon : option string
}.

(** The [meta] object of [DangerResults]. *)
Record Meta : Type := mkMeta {
  runtimeName : string;
  runtimeHref : string
}.

(** [DangerResults] of [dsl/DangerResults.ts]. *)
Record DangerResults : Type := mkResults {
  fails : list Violation;
  warnings : list Violation;
  messages : list Violation;
  markdowns : list Violation;
  meta : option Meta
}.

(** Modelled from the spec: [isInline] of [dsl/Violation.ts], which is
    imported by the template but is not part of the sources at hand.  A
    violation is inline when both its file and its line are present. *)
Definition isInline (violation : Violation) : bool :=
  match file violation, line violation with
  | Some _, Some _ => true
  | _, _ => false
  end.

(** ** The template *)

(** The character class of the regular expression of [containsMarkdown]:
    backtick, star, underscore, tilde, opening bracket. *)
Definition markdownChars : list ascii :=
  [ascii_of_nat 96; ascii_of_nat 42; ascii_of_nat 95; ascii_of_nat 126;
   ascii_of_nat 91].

Definition isMarkdownChar (c : ascii) : bool :=
  existsb (Ascii.eqb c) markdownChars.

(** The matches of a global regular expression [/[class]+/g], left to right:
    the maximal runs of characters of the class.  [run] is the run being
    read. *)
Fixpoint runsFrom (class : ascii -> bool) (run : string) (s : string)
  : list string :=
  let flush := if isFalsy run then [] else [run] in
  match s with
  | EmptyString => flush
  | String c s' =>
      if class c then runsFrom class (run ++ String c EmptyString) s'
      else flush ++ runsFrom class EmptyString s'
  end.

(** [message.match(/[`*_~\[]+/g)]: [None] is [null], the result when nothing
    matches. *)
Definition matchMarkdown (message : string) : option (list string) :=
  match runsFrom isMarkdownChar EmptyString message with
  | [] => None
  | matches => Some matches
  end.

Definition containsMarkdown (message : string) : bool :=
  match matchMarkdown message with
  | Some _ => true
  | None => false
  end.

Definition noViolationsOrAllOfThemEmpty (violations : list Violation) : bool :=
  (len violations =? 0)%Z || every (fun violation => isFalsy (message violation)) violations.

Definition truncate (msg : string) (count : Z) : string :=
  if isFalsy msg then msg
  else if (size msg <? count)%Z then msg
  else substr msg 0 (count - 3) ++ "...".

(** The text of the second cell of a row: the message, prefixed with its
    location when the violation is inline, and set off by blank lines when
    it holds markdown (first half of [htmlForValidation]). *)
Definition messageCell (violation : Violation) : string :=
  let message :=
    if isInline violation
    then "**" ++ show (file violation) ++ "#L" ++ showNumber (line violation)
         ++ "** - " ++ message violation
    else message violation in
  if containsMarkdown message
  then LF ++ LF ++ "  " ++ message ++ LF ++ "  "
  else message.

Definition htmlForValidation (defaultEmoji : string) (violation : Violation) : string :=
  let message := messageCell violation in
  let emojiString := ":" ++ defaultEmoji ++ ":" in
  lines
    [ "<tr>";
      "      <td>" ++ orElse (icon violation) emojiString ++ "</td>";
      "      <td>" ++ message ++ "</td>";
      "    </tr>";
      "  " ].

Definition table (name defaultEmoji : string) (violations : list Violation) : string :=
  if noViolationsOrAllOfThemEmpty violations then EmptyString
  else
    lines
      [ "";
        "<table>";
        "  <thead>";
        "    <tr>";
        "      <th width=" ++ quoted "50" ++ "></th>";
        "      <th width=" ++ quoted "100%" ++ " data-danger-table=" ++ quoted "true"
          ++ ">" ++ name ++ "</th>";
        "    </tr>";
        "  </thead>";
        "  <tbody>"
          ++ join LF (map (fun violation => htmlForValidation defaultEmoji violation) violations)
          ++ "</tbody>";
        "</table>";
        "" ].

Definition getSummary (label : string) (violations : list Violation) : string :=
  reduce
    (fun acc value idx =>
       acc ++ " " ++ value ++ (if (idx =? len violations - 1)%Z then "" else ","))
    (numberToString (len violations) ++ " " ++ label ++ ": ")
    (map (fun x => truncate (message x) 20) violations).

Definition dangerIDToString (id : string) : string :=
  "DangerID: danger-id-" ++ id ++ ";".

Definition fileLineToString (file : string) (line : Z) : string :=
  lines
    [ "  File: " ++ file ++ ";";
      "  Line: " ++ numberToString line ++ ";" ].

Definition buildSummaryMessage (dangerID : string) (results : DangerResults) : string :=
  let summary :=
    lines
      [ "  " ++ getSummary "failure" (fails results);
        "  " ++ getSummary "warning" (warnings results);
        "  " ++ (if (len (messages results) >? 0)%Z
                 then numberToString (len (messages results)) ++ " messages" else "");
        "  " ++ (if (len (markdowns results) >? 0)%Z
                 then numberToString (len (markdowns results)) ++ " markdown notices" else "");
        "  " ++ dangerIDToString dangerID ] in
  summary.

Definition defaultMeta : Meta :=
  {| runtimeName := "dangerJS"; runtimeHref := "https://danger.systems/js" |}.

Definition dangerSignature (results : DangerResults) : string :=
  let meta :=
    match meta results with
    | Some m => m
    | None => defaultMeta
    end in
  "Generated by :no_entry_sign: <a href=" ++ quoted (runtimeHref meta) ++ ">"
    ++ runtimeName meta ++ "</a>".

Definition dangerSignaturePostfix (results : DangerResults) (commitID : option string) : string :=
  let signature := dangerSignature results in
  match commitID with
  | Some commitID => signature ++ " against " ++ commitID
  | None => signature
  end.

Definition messageForResultWithIssues : string :=
  "Found some issues. Don't worry, everything is fixable.".

Definition template (dangerID : string) (results : DangerResults)
           (commitID : option string) : string :=
  lines
    [ "";
      "<!--";
      buildSummaryMessage dangerID results;
      "-->";
      table "Fails" "no_entry_sign" (fails results);
      table "Warnings" "warning" (warnings results);
      table "Messages" "book" (messages results);
      join (LF ++ LF) (map (fun v => message v) (markdowns results));
      "<p align=" ++ quoted "right" ++ ">";
      "  " ++ dangerSignaturePostfix results commitID;
      "</p>";
      "" ].

(** The bullet of one violation in the inline form ([printViolation], local
    to [inlineTemplate]). *)
Definition printViolation (defaultEmoji : string) (violation : Violation) : string :=
  let emojiString := ":" ++ defaultEmoji ++ ":" in
  "- " ++ orElse (icon violation) emojiString ++ " " ++ message violation.

Definition inlineTemplate (dangerID : string) (results : DangerResults)
           (file : string) (line : Z) : string :=
  lines
    [ "";
      "<!--";
      buildSummaryMessage dangerID results;
      fileLineToString file line;
      "-->";
      join LF (map (printViolation "no_entry_sign") (fails results));
      join LF (map (printViolation "warning") (warnings results));
      join LF (map (printViolation "book") (messages results));
      join (LF ++ LF) (map (fun v => message v) (markdowns results));
      "  " ].

(** ** Auxiliary definitions for the statements *)

(** The characters of a string, in order. *)
Definition chars (s : string) : list ascii := list_ascii_of_string s.

(** The three tabulated categories of a result set, each with the title and
    the default emoji that [template] and [inlineTemplate] give it. *)
Definition categories (results : DangerResults) : list (string * string * list Violation) :=
  [ ("Fails", "no_entry_sign", fails results);
    ("Warnings", "warning", warnings results);
    ("Messages", "book", messages results) ].

(** The inline violation and the general violation of the examples. *)
Definition inlineBad : Violation :=
  {| message := "bad"; file := Some "a.ts"; line := Some 3%Z; icon := None |}.

Definition generalBad : Violation :=
  {| message := "bad"; file := None; line := None; icon := None |}.

(** A general violation whose message holds backticks. *)
Definition useX : Violation :=
  {| message := "use `x` instead"; file := None; line := None; icon := None |}.

(** The violations a reader of the table-omission rule would expect to be
    tabulated: those with a message. *)
Definition withMessage (violations : list Violation) : list Violation :=
  filter (fun violation => negb (isFalsy (message violation))) violations.

Definition shownViolation : Violation :=
  {| message := "shown"; file := None; line := None; icon := None |}.

Definition emptyViolation : Violation :=
  {| message := ""; file := None; line := None; icon := None |}.

(** A result set whose only failure has an empty message. *)
Definition oneEmptyFailure : DangerResults :=
  {| fails := [emptyViolation]; warnings := []; messages := []; markdowns := [];
     meta := None |}.

(** A violation with its icon taken away. *)
Definition withoutIcon (violation : Violation) : Violation :=
  {| message := message violation; file := file violation; line := line violation;
     icon := None |}.

(** A result set with nothing to report. *)
Definition nothingToReport : DangerResults :=
  {| fails := []; warnings := []; messages := []; markdowns := []; meta := None |}.

(** A violation that brings its own glyph, and one whose icon is empty. *)
Definition starred : Violation :=
  {| message := "well done"; file := None; line := None; icon := Some ":star:" |}.

Definition blankIcon : Violation :=
  {| message := "well done"; file := None; line := None; icon := Some "" |}.

(** A result set with one violation in each list. *)
Definition oneOfEach : DangerResults :=
  {| fails := [inlineBad]; warnings := [useX]; messages := [starred];
     markdowns := [shownViolation]; meta := None |}.

(** A result set whose failures are one with a text and one without. *)
Definition twoFailures : DangerResults :=
  {| fails := [shownViolation; emptyViolation]; warnings := []; messages := [];
     markdowns := []; meta := None |}.

(** ** Strings: concatenation, length, prefixes and occurrences *)

Section StringFacts.

Lemma sapp_assoc (a b c : string) : (a ++ b) ++ c = a ++ b ++ c.
Proof. induction a as [|x a IH]; simpl; [reflexivity | now rewrite IH]. Qed.

Lemma sapp_nil_r (a : string) : a ++ "" = a.
Proof. induction a as [|x a IH]; simpl; [reflexivity | now rewrite IH]. Qed.

Lemma slength_app (a b : string) :
  String.length (a ++ b) = String.length a + String.length b.
Proof. induction a as [|x a IH]; simpl; [reflexivity | now rewrite IH]. Qed.

Lemma sapp_inv_head (a b c : string) : a ++ b = a ++ c -> b = c.
Proof.
  induction a as [|x a IH]; simpl; intros H; [exact H|].
  injection H as H. now apply IH.
Qed.

Lemma isFalsy_true (s : string) : isFalsy s = true <-> s = "".
Proof. destruct s; simpl; split; congruence. Qed.

Lemma isFalsy_false (s : string) : isFalsy s = false <-> s <> "".
Proof. destruct s; simpl; split; congruence. Qed.

Lemma startsWith_spec (s p : string) : startsWith s p = true <-> StartsWith s p.
Proof.
  unfold startsWith, StartsWith. revert s.
  induction p as [|c p IH]; intros s; simpl.
  - destruct s; split; intros _; try reflexivity; eexists; reflexivity.
  - destruct s as [|d s]; simpl.
    + split; [discriminate | intros [post H]; discriminate].
    + destruct (ascii_dec c d) as [->|Hne].
      * rewrite IH. split; intros [post H]; exists post.
        -- now rewrite H.
        -- now injection H.
      * split; [discriminate|]. intros [post H]. injection H as H1 _. congruence.
Qed.

Lemma includes_spec (s needle : string) : includes s needle = true <-> Contains s needle.
Proof.
  unfold Contains. induction s as [|c s IH]; cbn [includes].
  - rewrite orb_false_r, startsWith_spec. split.
    + intros [post H]. exists "", post. exact H.
    + intros [pre [post H]]. destruct pre; simpl in H; [now exists post | discriminate].
  - rewrite orb_true_iff, startsWith_spec, IH. split.
    + intros [[post H] | [pre [post H]]].
      * exists "", post. exact H.
      * exists (String c pre), post. simpl. now rewrite H.
    + intros [pre [post H]]. destruct pre as [|d pre]; simpl in H.
      * left. now exists post.
      * right. injection H as _ H. now exists pre, post.
Qed.

Lemma includes_false (s needle : string) : includes s needle = false -> ~ Contains s needle.
Proof. intros H C. apply includes_spec in C. congruence. Qed.

Lemma Contains_refl (s : string) : Contains s s.
Proof. exists "", "". simpl. now rewrite sapp_nil_r. Qed.

Lemma Contains_app_l (s needle p : string) : Contains s needle -> Contains (p ++ s) needle.
Proof. intros [pre [post ->]]. exists (p ++ pre), post. now rewrite sapp_assoc. Qed.

Lemma Contains_app_r (s needle p : string) : Contains s needle -> Contains (s ++ p) needle.
Proof.
  intros [pre [post ->]]. exists pre, (post ++ p). now rewrite !sapp_assoc.
Qed.

Lemma Contains_join (sep needle x : string) (arr : list string) :
  In x arr -> Contains x needle -> Contains (join sep arr) needle.
Proof.
  unfold join. induction arr as [|y arr IH]; intros Hin Hx; [destruct Hin|].
  destruct arr as [|z arr].
  - destruct Hin as [->|[]]. exact Hx.
  - change (Contains (y ++ sep ++ String.concat sep (z :: arr)) needle).
    destruct Hin as [->|Hin].
    + now apply Contains_app_r.
    + now apply Contains_app_l, Contains_app_l, IH.
Qed.

(** The first [n] characters of a string. *)
Lemma substring_0_min (n : nat) (s : string) :
  substring 0 (Nat.min n (String.length s)) s = substring 0 n s.
Proof.
  revert n. induction s as [|c s IH]; intros [|n]; simpl; try reflexivity.
  now rewrite IH.
Qed.

Lemma substring_0_split (n : nat) (s : string) :
  n <= String.length s ->
  exists tail, s = substring 0 n s ++ tail /\ String.length (substring 0 n s) = n.
Proof.
  revert n. induction s as [|c s IH]; intros [|n] Hn; simpl in *.
  - exists "". now split.
  - lia.
  - exists (String c s). now split.
  - destruct (IH n) as [tail [H1 H2]]; [lia|].
    exists tail. split; [now rewrite <- H1 | now rewrite H2].
Qed.

Lemma substring_0_app (n : nat) (a b : string) :
  n <= String.length a -> substring 0 n (a ++ b) = substring 0 n a.
Proof.
  revert n. induction a as [|c a IH]; intros [|n] Hn; simpl in *; try reflexivity.
  - now destruct b.
  - lia.
  - rewrite IH; [reflexivity | lia].
Qed.

Lemma substring_0_all (n : nat) (s : string) :
  String.length s <= n -> substring 0 n s = s.
Proof.
  revert n. induction s as [|c s IH]; intros [|n] Hn; simpl in *; try reflexivity.
  - lia.
  - rewrite IH; [reflexivity | lia].
Qed.

Lemma substr_0 (s : string) (count : Z) :
  substr s 0 count = substring 0 (Z.to_nat count) s.
Proof.
  unfold substr, size. change (0 <? 0)%Z with false. cbv iota.
  rewrite <- (substring_0_min (Z.to_nat count) s).
  replace (Z.min 0 (Z.of_nat (String.length s))) with 0%Z by lia.
  f_equal. lia.
Qed.

End StringFacts.

(** ** truncate *)

Section Truncate.

Lemma truncate_empty (count : Z) : truncate "" count = "".
Proof. reflexivity. Qed.

Lemma truncate_short (msg : string) (count : Z) :
  (size msg < count)%Z -> truncate msg count = msg.
Proof.
  intros H. unfold truncate. destruct (isFalsy msg); [reflexivity|].
  apply Z.ltb_lt in H. now rewrite H.
Qed.

Lemma truncate_long (msg : string) (count : Z) :
  msg <> "" -> (count <= size msg)%Z ->
  truncate msg count = substring 0 (Z.to_nat (count - 3)) msg ++ "...".
Proof.
  intros Hne H. unfold truncate.
  apply isFalsy_false in Hne. rewrite Hne.
  apply Z.ltb_ge in H. rewrite H. now rewrite substr_0.
Qed.

End Truncate.

(** C5.  For a non-empty message, [truncate msg 20] is the message itself when
    it is shorter than 20 characters; otherwise it is the first 17 characters
    of the message followed by the three dots.  A message longer than 20
    characters is cut to exactly 20 characters that end with the dots. *)
Theorem truncate_20_cases (msg : string) (Hmsg : msg <> "") :
  (String.length msg < 20 -> truncate msg 20 = msg) /\
  (20 <= String.length msg ->
   truncate msg 20 = substring 0 17 msg ++ "..." /\
   exists head tail,
     msg = head ++ tail /\ String.length head = 17 /\ truncate msg 20 = head ++ "...") /\
  (20 < String.length msg ->
   String.length (truncate msg 20) = 20 /\ EndsWith (truncate msg 20) "...").
Proof.
  split; [|split].
  - intros H. apply truncate_short. unfold size. lia.
  - intros H.
    assert (E : truncate msg 20 = substring 0 17 msg ++ "...").
    { rewrite truncate_long; [reflexivity | exact Hmsg | unfold size; lia]. }
    split; [exact E|].
    destruct (substring_0_split 17 msg) as [tail [H1 H2]]; [lia|].
    exists (substring 0 17 msg), tail. now repeat split.
  - intros H.
    rewrite truncate_long; [| exact Hmsg | unfold size; lia].
    change (Z.to_nat (20 - 3)) with 17.
    destruct (substring_0_split 17 msg) as [tail [H1 H2]]; [lia|].
    split.
    + rewrite slength_app, H2. reflexivity.
    + now exists (substring 0 17 msg).
Qed.

Lemma truncate_20_cases_witness :
  "a message of more than twenty characters" <> "" /\
  truncate "a message of more than twenty characters" 20 = "a message of more..." /\
  String.length (truncate "a message of more than twenty characters" 20) = 20.
Proof.
  assert (Hmsg : "a message of more than twenty characters" <> "") by discriminate.
  split; [exact Hmsg|].
  destruct (truncate_20_cases "a message of more than twenty characters" Hmsg)
    as (_ & Hlong & Hcut).
  split.
  - destruct Hlong as [E _]; [simpl; lia | exact E].
  - destruct Hcut as [L _]; [simpl; lia | exact L].
Defined.

(** C6.  Truncating to 20 twice is the same as truncating once. *)
Theorem truncate_20_idempotent (msg : string) :
  truncate (truncate msg 20) 20 = truncate msg 20.
Proof.
  destruct msg as [|c msg]; [reflexivity|].
  set (m := String c msg).
  assert (Hm : m <> "") by discriminate.
  destruct (Nat.lt_ge_cases (String.length m) 20) as [Hlt | Hge].
  - rewrite (truncate_short m); [| unfold size; lia].
    apply truncate_short. unfold size. lia.
  - rewrite (truncate_long m); [| exact Hm | unfold size; lia].
    change (Z.to_nat (20 - 3)) with 17.
    destruct (substring_0_split 17 m) as [tail [_ H2]]; [lia|].
    rewrite truncate_long.
    + change (Z.to_nat (20 - 3)) with 17.
      rewrite substring_0_app; [| lia].
      rewrite substring_0_all; [reflexivity | lia].
    + intros E. apply (f_equal String.length) in E.
      rewrite slength_app, H2 in E. discriminate.
    + unfold size. rewrite slength_app, H2. simpl. lia.
Qed.

(** ** The markdown test *)

Section Markdown.

Lemma isMarkdownChar_spec (c : ascii) : isMarkdownChar c = true <-> In c markdownChars.
Proof.
  unfold isMarkdownChar. rewrite existsb_exists. split.
  - intros [d [Hd E]]. apply Ascii.eqb_eq in E. now subst.
  - intros H. exists c. split; [exact H | apply Ascii.eqb_refl].
Qed.

Lemma sapp_char_not_empty (run : string) (c : ascii) : run ++ String c "" <> "".
Proof. destruct run; discriminate. Qed.

(** No match at all: no run is being read and no character of the rest
    is in the class. *)
Lemma runsFrom_nil (class : ascii -> bool) (s run : string) :
  runsFrom class run s = [] <->
  run = "" /\ forall c, In c (chars s) -> class c = false.
Proof.
  revert run. induction s as [|c s IH]; intros run; cbn [runsFrom chars list_ascii_of_string].
  - destruct run; simpl; split.
    + intros _. split; [reflexivity | intros c []].
    + reflexivity.
    + discriminate.
    + intros [E _]. discriminate.
  - destruct (class c) eqn:Hc.
    + rewrite IH. split.
      * intros [E _]. now apply sapp_char_not_empty in E.
      * intros [_ H]. specialize (H c (or_introl eq_refl)). congruence.
    + split.
      * intros H. apply app_eq_nil in H. destruct H as [H1 H2].
        apply IH in H2. destruct H2 as [_ H2]. split.
        -- destruct run; [reflexivity | discriminate].
        -- intros d [<-|Hd]; [exact Hc | now apply H2].
      * intros [-> H]. simpl. apply IH. split; [reflexivity|].
        intros d Hd. apply H. now right.
Qed.

Lemma containsMarkdown_false (s : string) :
  containsMarkdown s = false <-> forall c, In c (chars s) -> isMarkdownChar c = false.
Proof.
  unfold containsMarkdown, matchMarkdown.
  destruct (runsFrom isMarkdownChar "" s) as [|m ms] eqn:E.
  - apply runsFrom_nil in E. destruct E as [_ E]. split; auto.
  - split; [discriminate|]. intros H.
    assert (N : runsFrom isMarkdownChar "" s = []) by (apply runsFrom_nil; auto).
    congruence.
Qed.

(** The test holds exactly when one of the five characters occurs. *)
Lemma containsMarkdown_spec (s : string) :
  containsMarkdown s = true <-> exists c, In c (chars s) /\ In c markdownChars.
Proof.
  split.
  - intros H. destruct (existsb isMarkdownChar (chars s)) eqn:E.
    + apply existsb_exists in E. destruct E as [c [Hc Hm]].
      exists c. split; [exact Hc | now apply isMarkdownChar_spec].
    + assert (F : containsMarkdown s = false).
      { apply containsMarkdown_false. intros c Hc.
        destruct (isMarkdownChar c) eqn:Em; [|reflexivity].
        assert (X : existsb isMarkdownChar (chars s) = true)
          by (apply existsb_exists; now exists c).
        congruence. }
      congruence.
  - intros [c [Hc Hm]]. destruct (containsMarkdown s) eqn:E; [reflexivity|].
    rewrite containsMarkdown_false in E. apply isMarkdownChar_spec in Hm.
    specialize (E c Hc). congruence.
Qed.


End Markdown.

(** ** Rows and tables *)

Section Tables.

Lemma lines_cons (x y : string) (ls : list string) :
  lines (x :: y :: ls) = x ++ LF ++ lines (y :: ls).
Proof. reflexivity. Qed.

Lemma noViolationsOrAllOfThemEmpty_spec (violations : list Violation) :
  noViolationsOrAllOfThemEmpty violations = true <->
  violations = [] \/ Forall (fun v => message v = "") violations.
Proof.
  unfold noViolationsOrAllOfThemEmpty, every, len.
  rewrite orb_true_iff, forallb_forall, Forall_forall, Z.eqb_eq. split.
  - intros [H|H].
    + left. destruct violations; [reflexivity | simpl in H; lia].
    + right. intros v Hv. now apply isFalsy_true, H.
  - intros [->|H].
    + left. reflexivity.
    + right. intros v Hv. now apply isFalsy_true, H.
Qed.

Lemma table_omitted (name defaultEmoji : string) (violations : list Violation) :
  noViolationsOrAllOfThemEmpty violations = true -> table name defaultEmoji violations = "".
Proof. intros H. unfold table. now rewrite H. Qed.

Lemma table_shown (name defaultEmoji : string) (violations : list Violation) :
  noViolationsOrAllOfThemEmpty violations = false ->
  table name defaultEmoji violations =
  lines
    [ "";
      "<table>";
      "  <thead>";
      "    <tr>";
      "      <th width=" ++ quoted "50" ++ "></th>";
      "      <th width=" ++ quoted "100%" ++ " data-danger-table=" ++ quoted "true"
        ++ ">" ++ name ++ "</th>";
      "    </tr>";
      "  </thead>";
      "  <tbody>" ++ join LF (map (htmlForValidation defaultEmoji) violations) ++ "</tbody>";
      "</table>";
      "" ].
Proof. intros H. unfold table. now rewrite H. Qed.

Lemma table_empty_iff (name defaultEmoji : string) (violations : list Violation) :
  table name defaultEmoji violations = "" <->
  violations = [] \/ Forall (fun v => message v = "") violations.
Proof.
  rewrite <- noViolationsOrAllOfThemEmpty_spec.
  destruct (noViolationsOrAllOfThemEmpty violations) eqn:E.
  - rewrite table_omitted by exact E. split; reflexivity.
  - rewrite table_shown by exact E. rewrite lines_cons.
    split; discriminate.
Qed.

End Tables.

(** C1.  Each of the three tables of the issue body is the empty string
    exactly when its list of violations is empty or every violation of the
    list has an empty message. *)
Theorem table_omitted_iff_nothing_to_show (results : DangerResults) :
  (table "Fails" "no_entry_sign" (fails results) = "" <->
   fails results = [] \/ Forall (fun v => message v = "") (fails results)) /\
  (table "Warnings" "warning" (warnings results) = "" <->
   warnings results = [] \/ Forall (fun v => message v = "") (warnings results)) /\
  (table "Messages" "book" (messages results) = "" <->
   messages results = [] \/ Forall (fun v => message v = "") (messages results)).
Proof. repeat split; apply table_empty_iff. Qed.

(** ** Where the parts sit in the rendered text *)

Section Occurrences.

Ltac pick := repeat first [left; reflexivity | right].

Lemma Contains_trans (a b c : string) : Contains a b -> Contains b c -> Contains a c.
Proof.
  intros [p1 [q1 ->]] H. apply Contains_app_l, Contains_app_r, H.
Qed.

Lemma row_contains_cell (defaultEmoji : string) (violation : Violation) :
  Contains (htmlForValidation defaultEmoji violation)
           ("<td>" ++ messageCell violation ++ "</td>").
Proof.
  unfold htmlForValidation, lines.
  apply Contains_join with (x := "      <td>" ++ messageCell violation ++ "</td>").
  - pick.
  - exists "      ", "". now rewrite sapp_nil_r.
Qed.

Lemma table_contains_row (name defaultEmoji : string) (violations : list Violation)
      (violation : Violation) :
  noViolationsOrAllOfThemEmpty violations = false ->
  In violation violations ->
  Contains (table name defaultEmoji violations) (htmlForValidation defaultEmoji violation).
Proof.
  intros Hshown Hin. rewrite table_shown by exact Hshown. unfold lines.
  eapply Contains_join.
  - do 8 right. left. reflexivity.
  - apply Contains_app_l, Contains_app_r.
    apply Contains_join with (x := htmlForValidation defaultEmoji violation).
    + now apply in_map.
    + apply Contains_refl.
Qed.

Lemma template_contains_table (dangerID : string) (results : DangerResults)
      (commitID : option string) (name defaultEmoji : string) (violations : list Violation) :
  In (name, defaultEmoji, violations) (categories results) ->
  Contains (template dangerID results commitID) (table name defaultEmoji violations).
Proof.
  intros Hin. unfold template, lines.
  apply Contains_join with (x := table name defaultEmoji violations);
    [| apply Contains_refl].
  destruct Hin as [E|[E|[E|[]]]]; injection E as <- <- <-; pick.
Qed.

Lemma inlineTemplate_contains_bullet (dangerID : string) (results : DangerResults)
      (file : string) (line : Z) (name defaultEmoji : string)
      (violations : list Violation) (violation : Violation) :
  In (name, defaultEmoji, violations) (categories results) ->
  In violation violations ->
  Contains (inlineTemplate dangerID results file line)
           (printViolation defaultEmoji violation).
Proof.
  intros Hcat Hin. unfold inlineTemplate, lines.
  apply Contains_join
    with (x := join LF (map (printViolation defaultEmoji) violations)).
  - destruct Hcat as [E|[E|[E|[]]]]; injection E as <- <- <-; pick.
  - apply Contains_join with (x := printViolation defaultEmoji violation).
    + now apply in_map.
    + apply Contains_refl.
Qed.

Lemma shown_of_nonempty (violations : list Violation) (violation : Violation) :
  In violation violations -> message violation <> "" ->
  noViolationsOrAllOfThemEmpty violations = false.
Proof.
  intros Hin Hne.
  destruct (noViolationsOrAllOfThemEmpty violations) eqn:E; [|reflexivity].
  apply noViolationsOrAllOfThemEmpty_spec in E. destruct E as [->|E].
  - destruct Hin.
  - rewrite Forall_forall in E. now apply E in Hin.
Qed.

End Occurrences.

(** ** The message cell *)

Section MessageCell.


Lemma isInline_false (violation : Violation) :
  isInline violation = false <-> file violation = None \/ line violation = None.
Proof.
  unfold isInline. destruct (file violation), (line violation); split; intros H;
    try reflexivity; try discriminate; auto; destruct H; discriminate.
Qed.

Lemma messageCell_general_plain (violation : Violation) :
  isInline violation = false -> containsMarkdown (message violation) = false ->
  messageCell violation = message violation.
Proof. intros Hi Hm. unfold messageCell. now rewrite Hi, Hm. Qed.

Lemma messageCell_general_markdown (violation : Violation) :
  isInline violation = false -> containsMarkdown (message violation) = true ->
  messageCell violation = LF ++ LF ++ "  " ++ message violation ++ LF ++ "  ".
Proof. intros Hi Hm. unfold messageCell. now rewrite Hi, Hm. Qed.

End MessageCell.

(** C3, as the code has it.  The row of the inline violation
    [{file: a.ts, line: 3, message: bad}] has the message cell made of two
    line feeds, two spaces, the text [**a.ts#L3** - bad], a line feed and two
    spaces: the location prefix holds stars, so the cell is set off as
    markdown and the prefixed message comes after the blank lines.  The row
    of a violation with message [bad] that lacks its file or its line has the
    message cell [bad], with no prefix. *)
Theorem row_of_bad (defaultEmoji : string) :
  (forall ic,
     let violation := {| message := "bad"; file := Some "a.ts"; line := Some 3%Z; icon := ic |} in
     htmlForValidation defaultEmoji violation =
     lines
       [ "<tr>";
         "      <td>" ++ orElse ic (":" ++ defaultEmoji ++ ":") ++ "</td>";
         "      <td>" ++ (LF ++ LF ++ "  **a.ts#L3** - bad" ++ LF ++ "  ") ++ "</td>";
         "    </tr>";
         "  " ]) /\
  (forall violation,
     message violation = "bad" ->
     file violation = None \/ line violation = None ->
     messageCell violation = "bad" /\
     htmlForValidation defaultEmoji violation =
     lines
       [ "<tr>";
         "      <td>" ++ orElse (icon violation) (":" ++ defaultEmoji ++ ":") ++ "</td>";
         "      <td>bad</td>";
         "    </tr>";
         "  " ]).
Proof.
  split.
  - intros ic. reflexivity.
  - intros violation Hm Hloc. apply isInline_false in Hloc.
    assert (E : messageCell violation = "bad").
    { rewrite messageCell_general_plain; [exact Hm | exact Hloc | now rewrite Hm]. }
    split; [exact E|]. unfold htmlForValidation. now rewrite E.
Qed.

Lemma row_of_bad_witness :
  message generalBad = "bad" /\
  (file generalBad = None \/ line generalBad = None) /\
  messageCell generalBad = "bad" /\
  htmlForValidation "no_entry_sign" generalBad =
  lines
    [ "<tr>";
      "      <td>:no_entry_sign:</td>";
      "      <td>bad</td>";
      "    </tr>";
      "  " ].
Proof.
  split; [reflexivity|]. split; [left; reflexivity|].
  exact (proj2 (row_of_bad "no_entry_sign") generalBad eq_refl (or_introl eq_refl)).
Defined.

(** C3, as stated, fails: the message cell of the inline violation
    [{file: a.ts, line: 3, message: bad}] does not begin with
    [**a.ts#L3** - bad]; it begins with a line feed. *)
Lemma inline_cell_does_not_begin_with_prefix :
  Contains (htmlForValidation "no_entry_sign" inlineBad)
           ("<td>" ++ messageCell inlineBad ++ "</td>") /\
  messageCell inlineBad = LF ++ LF ++ "  **a.ts#L3** - bad" ++ LF ++ "  " /\
  ~ StartsWith (messageCell inlineBad) "**a.ts#L3** - bad".
Proof.
  split; [apply row_contains_cell|]. split; [reflexivity|].
  intros H. apply startsWith_spec in H. discriminate H.
Qed.



(** C9.  A violation that is not inline and whose message holds one of the
    five markdown characters has, in the issue body, a message cell made of
    two line feeds, two spaces, the message, a line feed and two spaces; in
    the inline body its bullet is a dash, the glyph and the message as it
    is. *)
Theorem markdown_wrapped_in_table_only (violation : Violation) :
  isInline violation = false ->
  (exists c, In c markdownChars /\ In c (chars (message violation))) ->
  messageCell violation = LF ++ LF ++ "  " ++ message violation ++ LF ++ "  " /\
  (forall defaultEmoji,
     printViolation defaultEmoji violation =
     "- " ++ orElse (icon violation) (":" ++ defaultEmoji ++ ":") ++ " " ++ message violation) /\
  (forall dangerID results commitID file line name defaultEmoji violations,
     In (name, defaultEmoji, violations) (categories results) ->
     In violation violations ->
     Contains (template dangerID results commitID)
              ("<td>" ++ (LF ++ LF ++ "  " ++ message violation ++ LF ++ "  ") ++ "</td>") /\
     Contains (inlineTemplate dangerID results file line)
              ("- " ++ orElse (icon violation) (":" ++ defaultEmoji ++ ":") ++ " "
                    ++ message violation)).
Proof.
  intros Hgeneral [c [Hclass Hc]].
  assert (Hmd : containsMarkdown (message violation) = true)
    by (apply containsMarkdown_spec; now exists c).
  assert (Hcell := messageCell_general_markdown violation Hgeneral Hmd).
  assert (Hne : message violation <> "").
  { intros E. rewrite E in Hc. destruct Hc. }
  split; [exact Hcell|]. split; [reflexivity|].
  intros dangerID results commitID file line name defaultEmoji violations Hcat Hin. split.
  - rewrite <- Hcell.
    apply Contains_trans with (b := table name defaultEmoji violations).
    + now apply template_contains_table.
    + apply Contains_trans with (b := htmlForValidation defaultEmoji violation).
      * apply table_contains_row; [|exact Hin]. now apply shown_of_nonempty with violation.
      * apply row_contains_cell.
  - now apply inlineTemplate_contains_bullet with name violations.
Qed.

Lemma markdown_wrapped_in_table_only_witness :
  isInline useX = false /\
  (exists c, In c markdownChars /\ In c (chars (message useX))) /\
  messageCell useX = LF ++ LF ++ "  use `x` instead" ++ LF ++ "  " /\
  printViolation "no_entry_sign" useX = "- :no_entry_sign: use `x` instead".
Proof.
  assert (H1 : isInline useX = false) by reflexivity.
  assert (H2 : exists c, In c markdownChars /\ In c (chars (message useX))).
  { exists (ascii_of_nat 96). split; [left; reflexivity|]. do 4 right. left. reflexivity. }
  destruct (markdown_wrapped_in_table_only useX H1 H2) as (A & B & _).
  split; [exact H1|]. split; [exact H2|]. split; [exact A | exact (B "no_entry_sign")].
Defined.

(** ** The hidden summary *)

Section Summary.

Lemma len_map {A B : Type} (f : A -> B) (arr : list A) : len (map f arr) = len arr.
Proof. unfold len. now rewrite length_map. Qed.

(** The reducer of [getSummary] writes a space before each value and a
    comma after each value but the last one. *)
Lemma reduceFrom_separated (total : Z) (values : list string) (idx : Z) (acc : string) :
  (idx + len values = total)%Z ->
  reduceFrom
    (fun acc value idx =>
       acc ++ " " ++ value ++ (if (idx =? total - 1)%Z then "" else ","))
    idx acc values
  = acc ++ join "," (map (fun value => " " ++ value) values).
Proof.
  revert idx acc. induction values as [|value rest IH]; intros idx acc Hidx.
  - simpl. now rewrite sapp_nil_r.
  - cbn [reduceFrom]. rewrite IH by (unfold len in *; simpl length in *; lia).
    destruct rest as [|next rest].
    + replace (idx =? total - 1)%Z with true
        by (symmetry; apply Z.eqb_eq; unfold len in *; simpl in *; lia).
      simpl. now rewrite !sapp_nil_r.
    + replace (idx =? total - 1)%Z with false
        by (symmetry; apply Z.eqb_neq; unfold len in *; simpl length in *; lia).
      unfold join. cbn [map String.concat].
      now rewrite !sapp_assoc.
Qed.

Lemma getSummary_format (label : string) (violations : list Violation) :
  getSummary label violations =
  numberToString (len violations) ++ " " ++ label ++ ": "
    ++ join "," (map (fun x => " " ++ truncate (message x) 20) violations).
Proof.
  unfold getSummary, reduce.
  rewrite reduceFrom_separated by (rewrite len_map; lia).
  now rewrite map_map, !sapp_assoc.
Qed.

End Summary.

(** ** Violations with an empty message *)

(** C4, as stated, fails: in the table of a list with one message and one
    empty message, the violation with the empty message has a row of its
    own, with an empty message cell; the table differs from the table of the
    violations that have a message. *)
Lemma empty_message_has_a_row :
  (exists v, In v [shownViolation; emptyViolation] /\ message v <> "") /\
  In emptyViolation [shownViolation; emptyViolation] /\
  message emptyViolation = "" /\
  htmlForValidation "no_entry_sign" emptyViolation =
  lines
    [ "<tr>";
      "      <td>:no_entry_sign:</td>";
      "      <td></td>";
      "    </tr>";
      "  " ] /\
  Contains (table "Fails" "no_entry_sign" [shownViolation; emptyViolation])
           (htmlForValidation "no_entry_sign" emptyViolation) /\
  table "Fails" "no_entry_sign" [shownViolation; emptyViolation] <>
  table "Fails" "no_entry_sign" (withMessage [shownViolation; emptyViolation]).
Proof.
  split; [exists shownViolation; split; [left; reflexivity | discriminate]|].
  split; [right; left; reflexivity|].
  split; [reflexivity|]. split; [reflexivity|]. split.
  - apply table_contains_row; [reflexivity | right; left; reflexivity].
  - intros E. apply (f_equal String.length) in E. vm_compute in E. discriminate E.
Qed.

(** C2, as stated, fails: for a single failure with an empty message the
    summary line of the failures is [1 failure:] followed by two spaces, and
    the text [1 failure: ,] occurs nowhere in the issue body. *)
Lemma one_empty_failure_has_no_comma :
  fails oneEmptyFailure = [emptyViolation] /\
  message emptyViolation = "" /\
  getSummary "failure" (fails oneEmptyFailure) = "1 failure:  " /\
  ~ Contains (template "42" oneEmptyFailure None) "1 failure: ,".
Proof.
  split; [reflexivity|]. split; [reflexivity|]. split; [reflexivity|].
  apply includes_false. vm_compute. reflexivity.
Qed.

(** C2, as the code has it.  When the only failure has an empty message, the
    table of the failures is omitted and the hidden summary opens with the
    line made of two spaces, [1 failure:] and two more spaces: the empty
    message is listed, and no comma follows it, being the last.  A summary
    line is the count, a space, the label, a colon and a space, then the
    truncated messages, each after a space of its own, with a comma between
    one and the next. *)
Theorem one_empty_failure_summary (dangerID : string) (results : DangerResults)
        (commitID : option string) (violation : Violation) :
  fails results = [violation] -> message violation = "" ->
  table "Fails" "no_entry_sign" (fails results) = "" /\
  getSummary "failure" (fails results) = "1 failure:  " /\
  StartsWith (template dangerID results commitID)
             (LF ++ "<!--" ++ LF ++ "  1 failure:  " ++ LF) /\
  (forall label violations,
     getSummary label violations =
     numberToString (len violations) ++ " " ++ label ++ ": "
       ++ join "," (map (fun x => " " ++ truncate (message x) 20) violations)).
Proof.
  intros Hfails Hmsg.
  assert (Hsum : getSummary "failure" (fails results) = "1 failure:  ").
  { rewrite getSummary_format, Hfails. cbn [map join String.concat]. rewrite Hmsg. reflexivity. }
  split.
  - apply table_omitted, noViolationsOrAllOfThemEmpty_spec. right.
    rewrite Hfails. constructor; [exact Hmsg | constructor].
  - split; [exact Hsum|]. split; [|exact getSummary_format].
    unfold template, buildSummaryMessage. rewrite Hsum.
    rewrite !lines_cons, !sapp_assoc.
    eexists. cbn [append LF]. reflexivity.
Qed.

Lemma one_empty_failure_summary_witness :
  fails oneEmptyFailure = [emptyViolation] /\
  message emptyViolation = "" /\
  table "Fails" "no_entry_sign" (fails oneEmptyFailure) = "" /\
  getSummary "failure" (fails oneEmptyFailure) = "1 failure:  ".
Proof.
  split; [reflexivity|]. split; [reflexivity|].
  destruct (one_empty_failure_summary "42" oneEmptyFailure None emptyViolation
              eq_refl eq_refl) as (A & B & _).
  split; [exact A | exact B].
Defined.

(** ** The identifier and the signature *)

Section Markers.

Lemma join_app (sep : string) (front back : list string) :
  front <> [] -> back <> [] ->
  join sep (front ++ back) = join sep front ++ sep ++ join sep back.
Proof.
  unfold join. intros Hf Hb.
  induction front as [|x front IH]; [congruence|].
  destruct front as [|y front].
  - destruct back; [congruence | reflexivity].
  - change (x ++ sep ++ String.concat sep ((y :: front) ++ back)
            = (x ++ sep ++ String.concat sep (y :: front)) ++ sep ++ String.concat sep back).
    rewrite IH by discriminate. now rewrite !sapp_assoc.
Qed.

Lemma buildSummaryMessage_contains_id (dangerID : string) (results : DangerResults) :
  Contains (buildSummaryMessage dangerID results) (dangerIDToString dangerID).
Proof.
  unfold buildSummaryMessage, lines.
  apply Contains_join with (x := "  " ++ dangerIDToString dangerID).
  - do 4 right. left. reflexivity.
  - apply Contains_app_l, Contains_refl.
Qed.

End Markers.

(** C7.  Whatever the build identifier and the results, the issue body and
    the inline body both hold the marker [DangerID: danger-id-], the
    identifier and a semicolon. *)
Theorem danger_id_marker (dangerID : string) (results : DangerResults)
        (commitID : option string) (file : string) (line : Z) :
  dangerIDToString dangerID = "DangerID: danger-id-" ++ dangerID ++ ";" /\
  dangerIDToString "42" = "DangerID: danger-id-42;" /\
  Contains (template dangerID results commitID) ("DangerID: danger-id-" ++ dangerID ++ ";") /\
  Contains (inlineTemplate dangerID results file line)
           ("DangerID: danger-id-" ++ dangerID ++ ";").
Proof.
  split; [reflexivity|]. split; [reflexivity|]. split.
  - apply Contains_trans with (b := buildSummaryMessage dangerID results).
    + unfold template, lines. eapply Contains_join; [|apply Contains_refl].
      do 2 right. left. reflexivity.
    + apply buildSummaryMessage_contains_id.
  - apply Contains_trans with (b := buildSummaryMessage dangerID results).
    + unfold inlineTemplate, lines. eapply Contains_join; [|apply Contains_refl].
      do 2 right. left. reflexivity.
    + apply buildSummaryMessage_contains_id.
Qed.

(** C8.  The signature is [Generated by :no_entry_sign:] and a link to the
    runtime's address with the runtime's name as its text, which are those
    of [meta], or [https://danger.systems/js] and [dangerJS] when there is no
    [meta].  Without a commit the signature line is the signature itself,
    which ends with the closing tag of the link; with a commit, [ against ]
    and the commit follow it.  The issue body ends with the signature line
    in its right-aligned paragraph. *)
Theorem signature_line (results : DangerResults) :
  dangerSignature results =
  "Generated by :no_entry_sign: <a href="
    ++ quoted (match meta results with
               | Some m => runtimeHref m
               | None => "https://danger.systems/js"
               end)
    ++ ">"
    ++ (match meta results with
        | Some m => runtimeName m
        | None => "dangerJS"
        end)
    ++ "</a>" /\
  dangerSignaturePostfix results None = dangerSignature results /\
  EndsWith (dangerSignaturePostfix results None) "</a>" /\
  (forall commitID,
     dangerSignaturePostfix results (Some commitID) =
     dangerSignature results ++ " against " ++ commitID) /\
  (forall dangerID commitID,
     EndsWith (template dangerID results commitID)
              (lines
                 [ "<p align=" ++ quoted "right" ++ ">";
                   "  " ++ dangerSignaturePostfix results commitID;
                   "</p>";
                   "" ])).
Proof.
  split; [|split; [|split; [|split]]].
  - unfold dangerSignature. destruct (meta results); reflexivity.
  - reflexivity.
  - unfold dangerSignaturePostfix, dangerSignature.
    eexists. rewrite <- !sapp_assoc. reflexivity.
  - reflexivity.
  - intros dangerID commitID.
    exists (lines
              [ "";
                "<!--";
                buildSummaryMessage dangerID results;
                "-->";
                table "Fails" "no_entry_sign" (fails results);
                table "Warnings" "warning" (warnings results);
                table "Messages" "book" (messages results);
                join (LF ++ LF) (map (fun v => message v) (markdowns results)) ]
              ++ LF).
    rewrite sapp_assoc. unfold template, lines.
    rewrite <- join_app by discriminate. reflexivity.
Qed.

(** ** More on truncate: any limit *)

Section TruncateAnyLimit.

Lemma substring_0_0 (s : string) : substring 0 0 s = "".
Proof. destruct s; reflexivity. Qed.

Lemma size_app (a b : string) : size (a ++ b) = (size a + size b)%Z.
Proof. unfold size. rewrite slength_app. lia. Qed.

Lemma size_head (msg : string) (count : Z) :
  (3 <= count <= size msg)%Z ->
  size (substring 0 (Z.to_nat (count - 3)) msg) = (count - 3)%Z.
Proof.
  intros H. unfold size in *.
  destruct (substring_0_split (Z.to_nat (count - 3)) msg) as [tail [_ L]]; lia.
Qed.

Lemma size_positive (msg : string) : msg <> "" -> (0 < size msg)%Z.
Proof. destruct msg; [congruence | unfold size; simpl; lia]. Qed.

Lemma not_empty_of_size (msg : string) : (0 < size msg)%Z -> msg <> "".
Proof. intros H E. subst. unfold size in H. simpl in H. lia. Qed.

Lemma size_truncate (msg : string) (count : Z) :
  (3 <= count)%Z -> size (truncate msg count) = Z.min (size msg) count.
Proof.
  intros Hc. destruct (Z.lt_ge_cases (size msg) count) as [Hlt | Hge].
  - rewrite truncate_short by exact Hlt. lia.
  - rewrite truncate_long; [| apply not_empty_of_size; lia | exact Hge].
    rewrite size_app, size_head by lia. unfold size at 1. simpl. lia.
Qed.

End TruncateAnyLimit.

(** X1.  With a limit of at least 3, the result of [truncate] is as long as
    the message or as long as the limit, whichever is less: it never grows
    and never exceeds the limit. *)
Theorem truncate_size (msg : string) (count : Z) :
  (3 <= count)%Z -> size (truncate msg count) = Z.min (size msg) count.
Proof. apply size_truncate. Qed.

Lemma truncate_size_witness :
  (3 <= 5)%Z /\ size (truncate "abcdefgh" 5) = 5%Z /\ truncate "abcdefgh" 5 = "ab...".
Proof.
  assert (H : (3 <= 5)%Z) by lia.
  split; [exact H|]. split; [|reflexivity].
  exact (truncate_size "abcdefgh" 5 H).
Defined.

(** X2.  With a limit of at least 3, [truncate] gives the message back
    unchanged in two cases only: the message is shorter than the limit, or
    it is exactly as long as the limit and already ends with three dots.  A
    message that is exactly as long as the limit and has no such ending
    loses its last three characters to the dots, although it fits. *)
Theorem truncate_unchanged_iff (msg : string) (count : Z) :
  (3 <= count)%Z ->
  (truncate msg count = msg <->
   (size msg < count)%Z \/ (size msg = count /\ EndsWith msg "...")).
Proof.
  intros Hc. split.
  - intros E. destruct (Z.lt_ge_cases (size msg) count) as [Hlt | Hge]; [now left | right].
    assert (S := size_truncate msg count Hc). rewrite E in S.
    split; [lia|].
    rewrite truncate_long in E; [| apply not_empty_of_size; lia | exact Hge].
    exists (substring 0 (Z.to_nat (count - 3)) msg). now symmetry.
  - intros [Hlt | [Hsize [pre Hpre]]]; [now apply truncate_short|].
    rewrite truncate_long; [| apply not_empty_of_size; lia | lia].
    assert (Lpre : String.length pre = Z.to_nat (count - 3)).
    { subst msg. rewrite size_app in Hsize. unfold size in Hsize. simpl in Hsize. lia. }
    rewrite Hpre at 1. rewrite substring_0_app by lia.
    rewrite substring_0_all by lia. now symmetry.
Qed.

Lemma truncate_unchanged_iff_witness :
  (3 <= 5)%Z /\
  (truncate "ab..." 5 = "ab..." <->
   (size "ab..." < 5)%Z \/ (size "ab..." = 5%Z /\ EndsWith "ab..." "...")) /\
  truncate "abcde" 5 = "ab...".
Proof.
  assert (H : (3 <= 5)%Z) by lia.
  split; [exact H|]. split; [|reflexivity].
  exact (truncate_unchanged_iff "ab..." 5 H).
Defined.

(** X3.  With a limit of 3 or less, a message that is not empty and is at
    least as long as the limit is replaced by the three dots alone, which may
    be longer than the message and than the limit. *)
Theorem truncate_tiny_limit (msg : string) (count : Z) :
  (count <= 3)%Z -> msg <> "" -> (count <= size msg)%Z -> truncate msg count = "...".
Proof.
  intros Hc Hne Hsize. rewrite truncate_long by assumption.
  replace (Z.to_nat (count - 3)) with 0 by lia.
  now rewrite substring_0_0.
Qed.

Lemma truncate_tiny_limit_witness :
  (1 <= 3)%Z /\ "a" <> "" /\ (1 <= size "a")%Z /\ truncate "a" 1 = "...".
Proof.
  assert (H1 : (1 <= 3)%Z) by lia.
  assert (H2 : "a" <> "") by discriminate.
  assert (H3 : (1 <= size "a")%Z) by (unfold size; simpl; lia).
  split; [exact H1|]. split; [exact H2|]. split; [exact H3|].
  exact (truncate_tiny_limit "a" 1 H1 H2 H3).
Defined.

(** ** More on the markdown test *)

Section MarkdownTest.

Lemma chars_app (a b : string) : chars (a ++ b) = (chars a ++ chars b)%list.
Proof.
  unfold chars. induction a as [|c a IH]; simpl; [reflexivity | now rewrite IH].
Qed.

Lemma bool_eq_of_iff (a b : bool) : (a = true <-> b = true) -> a = b.
Proof. destruct a, b; intros [H1 H2]; auto; symmetry; auto. Qed.

End MarkdownTest.

(** X4.  [containsMarkdown] holds for a message exactly when one of the five
    characters backtick, star, underscore, tilde and opening bracket occurs
    in it; in particular it fails for the empty message. *)
Theorem containsMarkdown_iff_some_char (s : string) :
  (containsMarkdown s = true <-> exists c, In c (chars s) /\ In c markdownChars) /\
  containsMarkdown "" = false.
Proof. split; [apply containsMarkdown_spec | reflexivity]. Qed.

(** X5.  A text made of two parts passes the markdown test exactly when one
    of the parts does: text put before or after a message can switch the
    test on, never off. *)
Theorem containsMarkdown_app (a b : string) :
  containsMarkdown (a ++ b) = containsMarkdown a || containsMarkdown b.
Proof.
  apply bool_eq_of_iff. rewrite orb_true_iff, !containsMarkdown_spec. split.
  - intros [c [Hc Hm]]. rewrite chars_app in Hc. apply in_app_or in Hc.
    destruct Hc as [Hc|Hc]; [left | right]; now exists c.
  - intros [[c [Hc Hm]] | [c [Hc Hm]]]; exists c; (split; [|exact Hm]);
      rewrite chars_app; apply in_or_app; auto.
Qed.

(** ** What the bodies carry verbatim *)

Section Verbatim.

Lemma Contains_here (pre x post : string) : Contains (pre ++ x ++ post) x.
Proof. now exists pre, post. Qed.

Lemma messageCell_contains_message (violation : Violation) :
  Contains (messageCell violation) (message violation).
Proof.
  unfold messageCell.
  assert (P : Contains (if isInline violation
                        then "**" ++ show (file violation) ++ "#L"
                             ++ showNumber (line violation) ++ "** - " ++ message violation
                        else message violation) (message violation)).
  { destruct (isInline violation); [|apply Contains_refl].
    do 5 apply Contains_app_l. apply Contains_refl. }
  destruct (containsMarkdown _); [|exact P].
  do 3 apply Contains_app_l. now apply Contains_app_r.
Qed.

Lemma row_contains_message (defaultEmoji : string) (violation : Violation) :
  Contains (htmlForValidation defaultEmoji violation) (message violation).
Proof.
  apply Contains_trans with (b := "<td>" ++ messageCell violation ++ "</td>").
  - apply row_contains_cell.
  - apply Contains_app_l, Contains_app_r, messageCell_contains_message.
Qed.

Lemma printViolation_contains_message (defaultEmoji : string) (violation : Violation) :
  Contains (printViolation defaultEmoji violation) (message violation).
Proof. unfold printViolation. do 3 apply Contains_app_l. apply Contains_refl. Qed.

Lemma passthrough_contains (results : DangerResults) (violation : Violation) :
  In violation (markdowns results) ->
  Contains (join (LF ++ LF) (map (fun v => message v) (markdowns results)))
           (message violation).
Proof.
  intros Hin. apply Contains_join with (x := message violation).
  - now apply (in_map (fun v => message v)).
  - apply Contains_refl.
Qed.

End Verbatim.

(** X6.  The message of every violation of the three tabulated lists stands
    verbatim, with nothing escaped, in the inline body; it stands verbatim
    in the issue body too whenever it is not empty. *)
Theorem message_is_verbatim (dangerID : string) (results : DangerResults)
        (commitID : option string) (file : string) (line : Z)
        (name defaultEmoji : string) (violations : list Violation) (violation : Violation) :
  In (name, defaultEmoji, violations) (categories results) ->
  In violation violations ->
  Contains (inlineTemplate dangerID results file line) (message violation) /\
  (message violation <> "" ->
   Contains (template dangerID results commitID) (message violation)).
Proof.
  intros Hcat Hin. split.
  - apply Contains_trans with (b := printViolation defaultEmoji violation).
    + now apply inlineTemplate_contains_bullet with name violations.
    + apply printViolation_contains_message.
  - intros Hne.
    apply Contains_trans with (b := table name defaultEmoji violations).
    + now apply template_contains_table.
    + apply Contains_trans with (b := htmlForValidation defaultEmoji violation).
      * apply table_contains_row; [|exact Hin]. now apply shown_of_nonempty with violation.
      * apply row_contains_message.
Qed.

Lemma message_is_verbatim_witness :
  In ("Warnings", "warning", [useX]) (categories oneOfEach) /\
  In useX [useX] /\
  Contains (inlineTemplate "42" oneOfEach "a.ts" 3) "use `x` instead" /\
  Contains (template "42" oneOfEach None) "use `x` instead".
Proof.
  assert (H1 : In ("Warnings", "warning", [useX]) (categories oneOfEach))
    by (right; left; reflexivity).
  assert (H2 : In useX [useX]) by (left; reflexivity).
  destruct (message_is_verbatim "42" oneOfEach None "a.ts" 3 "Warnings" "warning"
              [useX] useX H1 H2) as [A B].
  split; [exact H1|]. split; [exact H2|]. split; [exact A|].
  apply B. discriminate.
Defined.

(** X7.  The message of every entry of [markdowns] stands verbatim in the
    issue body and in the inline body, and the entries are put one after the
    other with a blank line between them. *)
Theorem markdowns_pass_through (dangerID : string) (results : DangerResults)
        (commitID : option string) (file : string) (line : Z) :
  Contains (template dangerID results commitID)
           (join (LF ++ LF) (map (fun v => message v) (markdowns results))) /\
  Contains (inlineTemplate dangerID results file line)
           (join (LF ++ LF) (map (fun v => message v) (markdowns results))) /\
  (forall violation,
     In violation (markdowns results) ->
     Contains (template dangerID results commitID) (message violation) /\
     Contains (inlineTemplate dangerID results file line) (message violation)) /\
  (forall first second,
     markdowns results = [first; second] ->
     Contains (template dangerID results commitID)
              (message first ++ LF ++ LF ++ message second)).
Proof.
  assert (T : Contains (template dangerID results commitID)
                (join (LF ++ LF) (map (fun v => message v) (markdowns results)))).
  { unfold template, lines. eapply Contains_join; [|apply Contains_refl].
    do 7 right. left. reflexivity. }
  assert (I : Contains (inlineTemplate dangerID results file line)
                (join (LF ++ LF) (map (fun v => message v) (markdowns results)))).
  { unfold inlineTemplate, lines. eapply Contains_join; [|apply Contains_refl].
    do 8 right. left. reflexivity. }
  split; [exact T|]. split; [exact I|]. split.
  - intros violation Hin. split.
    + eapply Contains_trans; [exact T | now apply passthrough_contains].
    + eapply Contains_trans; [exact I | now apply passthrough_contains].
  - intros first second E. rewrite E in T. exact T.
Qed.

(** ** The glyph of a row and of a bullet *)

(** X8.  An icon that is the empty string counts as no icon: the row and the
    bullet of such a violation are those of the same violation without an
    icon, and show the default emoji between colons. *)
Theorem empty_icon_is_no_icon (defaultEmoji : string) (violation : Violation) :
  icon violation = Some "" ->
  htmlForValidation defaultEmoji violation
  = htmlForValidation defaultEmoji (withoutIcon violation) /\
  printViolation defaultEmoji violation
  = printViolation defaultEmoji (withoutIcon violation) /\
  Contains (htmlForValidation defaultEmoji violation) ("<td>:" ++ defaultEmoji ++ ":</td>") /\
  StartsWith (printViolation defaultEmoji violation) ("- :" ++ defaultEmoji ++ ": ").
Proof.
  intros Hicon. destruct violation as [m f l i]. simpl in Hicon. subst i.
  split; [reflexivity|]. split; [reflexivity|]. split.
  - unfold htmlForValidation, lines.
    apply Contains_join with (x := "      <td>" ++ (":" ++ defaultEmoji ++ ":") ++ "</td>").
    + right. left. reflexivity.
    + exists "      ", "". rewrite sapp_nil_r.
      simpl. repeat (rewrite sapp_assoc; simpl). reflexivity.
  - exists m. unfold printViolation. simpl. repeat (rewrite sapp_assoc; simpl). reflexivity.
Qed.

Lemma empty_icon_is_no_icon_witness :
  icon blankIcon = Some "" /\
  printViolation "book" blankIcon = "- :book: well done".
Proof.
  split; [reflexivity|].
  destruct (empty_icon_is_no_icon "book" blankIcon eq_refl) as (_ & B & _).
  rewrite B. reflexivity.
Defined.

(** X9.  An icon that is not empty takes the place of the default emoji, as
    it is and without colons: the row and the bullet of such a violation do
    not depend on the default emoji of its list. *)
Theorem icon_overrides_emoji (violation : Violation) (glyph : string) :
  icon violation = Some glyph -> glyph <> "" ->
  forall defaultEmoji,
    htmlForValidation defaultEmoji violation =
    lines
      [ "<tr>";
        "      <td>" ++ glyph ++ "</td>";
        "      <td>" ++ messageCell violation ++ "</td>";
        "    </tr>";
        "  " ] /\
    printViolation defaultEmoji violation = "- " ++ glyph ++ " " ++ message violation.
Proof.
  intros Hicon Hne defaultEmoji.
  unfold htmlForValidation, printViolation. rewrite Hicon.
  apply isFalsy_false in Hne. unfold orElse. rewrite Hne. split; reflexivity.
Qed.

Lemma icon_overrides_emoji_witness :
  icon starred = Some ":star:" /\ ":star:" <> "" /\
  printViolation "book" starred = "- :star: well done".
Proof.
  assert (H : ":star:" <> "") by discriminate.
  split; [reflexivity|]. split; [exact H|].
  exact (proj2 (icon_overrides_emoji starred ":star:" eq_refl H "book")).
Defined.

(** ** The hidden comment *)

Section HiddenComment.

Lemma Contains_join_middle (sep : string) (front middle back : list string) :
  Contains (join sep (front ++ middle ++ back)) (join sep middle).
Proof.
  destruct middle as [|m middle].
  - exists "", (join sep (front ++ back)). reflexivity.
  - destruct front as [|x front]; destruct back as [|y back].
    + rewrite app_nil_l, app_nil_r. apply Contains_refl.
    + rewrite app_nil_l, join_app by discriminate. apply Contains_app_r, Contains_refl.
    + rewrite app_nil_r, join_app by discriminate.
      apply Contains_app_l, Contains_app_l, Contains_refl.
    + rewrite join_app by discriminate. apply Contains_app_l, Contains_app_l.
      rewrite join_app by discriminate. apply Contains_app_r, Contains_refl.
Qed.

Lemma buildSummaryMessage_ends_with_id (dangerID : string) (results : DangerResults) :
  EndsWith (buildSummaryMessage dangerID results) ("  " ++ dangerIDToString dangerID).
Proof.
  unfold buildSummaryMessage, lines.
  eexists.
  match goal with
  | |- join LF [?a; ?b; ?c; ?d; ?e] = _ =>
      change (join LF [a; b; c; d; e]) with (join LF ([a; b; c; d] ++ [e]))
  end.
  rewrite join_app by discriminate. rewrite <- sapp_assoc. reflexivity.
Qed.

Lemma template_contains_summary (dangerID : string) (results : DangerResults)
      (commitID : option string) :
  Contains (template dangerID results commitID) (buildSummaryMessage dangerID results).
Proof.
  unfold template, lines. eapply Contains_join; [|apply Contains_refl].
  do 2 right. left. reflexivity.
Qed.

Lemma inlineTemplate_contains_summary (dangerID : string) (results : DangerResults)
      (file : string) (line : Z) :
  Contains (inlineTemplate dangerID results file line) (buildSummaryMessage dangerID results).
Proof.
  unfold inlineTemplate, lines. eapply Contains_join; [|apply Contains_refl].
  do 2 right. left. reflexivity.
Qed.

End HiddenComment.

(** X10.  In the issue body the identifier line is the last line of the
    hidden comment: the closing of the comment follows it.  In the inline
    body the line of the file and the line of the line number stand between
    the identifier line and the closing of the comment. *)
Theorem identifier_closes_the_comment (dangerID : string) (results : DangerResults)
        (commitID : option string) (file : string) (line : Z) :
  Contains (template dangerID results commitID)
           ("  DangerID: danger-id-" ++ dangerID ++ ";" ++ LF ++ "-->") /\
  Contains (inlineTemplate dangerID results file line)
           ("  DangerID: danger-id-" ++ dangerID ++ ";" ++ LF
              ++ "  File: " ++ file ++ ";" ++ LF
              ++ "  Line: " ++ numberToString line ++ ";" ++ LF ++ "-->").
Proof.
  destruct (buildSummaryMessage_ends_with_id dangerID results) as [pre Hpre].
  split.
  - apply Contains_trans
      with (b := join LF [buildSummaryMessage dangerID results; "-->"]).
    + unfold template, lines.
      apply (Contains_join_middle LF [""; "<!--"]
               [buildSummaryMessage dangerID results; "-->"]).
    + unfold join. cbn [String.concat]. rewrite Hpre, sapp_assoc.
      apply Contains_app_l. exists "", "". rewrite sapp_nil_r.
      unfold dangerIDToString. simpl. repeat (rewrite sapp_assoc; simpl). reflexivity.
  - apply Contains_trans
      with (b := join LF [buildSummaryMessage dangerID results;
                          fileLineToString file line; "-->"]).
    + unfold inlineTemplate, lines.
      apply (Contains_join_middle LF [""; "<!--"]
               [buildSummaryMessage dangerID results; fileLineToString file line; "-->"]).
    + unfold join. cbn [String.concat]. rewrite Hpre, sapp_assoc.
      apply Contains_app_l. exists "", "". rewrite sapp_nil_r.
      unfold dangerIDToString, fileLineToString, lines, join.
      simpl. repeat (rewrite sapp_assoc; simpl). reflexivity.
Qed.

(** ** Nothing to report *)

(** X11.  When the four lists are empty the issue body is still produced:
    the hidden comment with two zero counts, two lines of indentation only
    and the identifier, four empty lines where the tables and the notes
    would be, and the signature. *)
Theorem template_of_nothing (dangerID : string) (results : DangerResults)
        (commitID : option string) :
  fails results = [] -> warnings results = [] ->
  messages results = [] -> markdowns results = [] ->
  template dangerID results commitID =
  lines
    [ "";
      "<!--";
      "  0 failure: ";
      "  0 warning: ";
      "  ";
      "  ";
      "  DangerID: danger-id-" ++ dangerID ++ ";";
      "-->";
      "";
      "";
      "";
      "";
      "<p align=" ++ quoted "right" ++ ">";
      "  " ++ dangerSignaturePostfix results commitID;
      "</p>";
      "" ].
Proof.
  intros Hf Hw Hm Hmd.
  unfold template, buildSummaryMessage. rewrite Hf, Hw, Hm, Hmd.
  unfold lines, join, dangerIDToString.
  cbn [String.concat table noViolationsOrAllOfThemEmpty len List.length map
       getSummary reduce reduceFrom Z.of_nat Z.eqb Z.gtb Z.compare orb].
  change (numberToString 0) with "0".
  simpl. repeat (rewrite sapp_assoc; simpl). reflexivity.
Qed.

Lemma template_of_nothing_witness :
  fails nothingToReport = [] /\ warnings nothingToReport = [] /\
  messages nothingToReport = [] /\ markdowns nothingToReport = [] /\
  Contains (template "42" nothingToReport None) "  0 failure: ".
Proof.
  repeat (split; [reflexivity|]).
  rewrite (template_of_nothing "42" nothingToReport None eq_refl eq_refl eq_refl eq_refl).
  apply Contains_join with (x := "  0 failure: "); [|apply Contains_refl].
  do 2 right. left. reflexivity.
Defined.

(** X12.  When the four lists are empty the inline body is still produced:
    the hidden comment with the counts, the identifier, the file and the
    line, then four empty lines and a last line of two spaces; it has no
    signature. *)
Theorem inlineTemplate_of_nothing (dangerID : string) (results : DangerResults)
        (file : string) (line : Z) :
  fails results = [] -> warnings results = [] ->
  messages results = [] -> markdowns results = [] ->
  inlineTemplate dangerID results file line =
  lines
    [ "";
      "<!--";
      "  0 failure: ";
      "  0 warning: ";
      "  ";
      "  ";
      "  DangerID: danger-id-" ++ dangerID ++ ";";
      "  File: " ++ file ++ ";";
      "  Line: " ++ numberToString line ++ ";";
      "-->";
      "";
      "";
      "";
      "";
      "  " ].
Proof.
  intros Hf Hw Hm Hmd.
  unfold inlineTemplate, buildSummaryMessage, fileLineToString. rewrite Hf, Hw, Hm, Hmd.
  unfold lines, join, dangerIDToString.
  cbn [String.concat len List.length map
       getSummary reduce reduceFrom Z.of_nat Z.eqb Z.gtb Z.compare].
  change (numberToString 0) with "0".
  simpl. repeat (rewrite sapp_assoc; simpl). reflexivity.
Qed.

Lemma inlineTemplate_of_nothing_witness :
  fails nothingToReport = [] /\ warnings nothingToReport = [] /\
  messages nothingToReport = [] /\ markdowns nothingToReport = [] /\
  Contains (inlineTemplate "42" nothingToReport "a.ts" 3) "  Line: 3;".
Proof.
  repeat (split; [reflexivity|]).
  rewrite (inlineTemplate_of_nothing "42" nothingToReport "a.ts" 3
             eq_refl eq_refl eq_refl eq_refl).
  apply Contains_join with (x := "  Line: 3;"); [|apply Contains_refl].
  do 8 right. left. reflexivity.
Defined.

(** ** More on the hidden summary *)

Section SummarySize.

Lemma join_length_bound (sep : string) (bound : nat) (arr : list string) :
  Forall (fun x => String.length x <= bound) arr ->
  String.length (join sep arr) <= (bound + String.length sep) * List.length arr.
Proof.
  unfold join. induction 1 as [|x arr Hx Harr IH]; [simpl; lia|].
  destruct arr as [|y arr].
  - simpl. lia.
  - change (String.concat sep (x :: y :: arr))
      with (x ++ sep ++ String.concat sep (y :: arr)).
    rewrite !slength_app. simpl List.length in *. lia.
Qed.

Lemma truncate_20_length (msg : string) : String.length (truncate msg 20) <= 20.
Proof.
  assert (H := size_truncate msg 20 ltac:(lia)). unfold size in H. lia.
Qed.

Lemma summary_contains_entry (label : string) (violations : list Violation)
      (violation : Violation) :
  In violation violations ->
  Contains (getSummary label violations) (" " ++ truncate (message violation) 20).
Proof.
  intros Hin. rewrite getSummary_format.
  do 4 apply Contains_app_l.
  apply Contains_join with (x := " " ++ truncate (message violation) 20).
  - now apply (in_map (fun x => " " ++ truncate (message x) 20)).
  - apply Contains_refl.
Qed.

Lemma buildSummaryMessage_contains_line (dangerID : string) (results : DangerResults)
      (text : string) :
  In text [ getSummary "failure" (fails results);
            getSummary "warning" (warnings results);
            if (len (messages results) >? 0)%Z
            then numberToString (len (messages results)) ++ " messages" else "";
            if (len (markdowns results) >? 0)%Z
            then numberToString (len (markdowns results)) ++ " markdown notices" else "" ] ->
  Contains (buildSummaryMessage dangerID results) ("  " ++ text ++ LF).
Proof.
  intros Hin. unfold buildSummaryMessage, lines.
  replace ("  " ++ text ++ LF) with (("  " ++ text) ++ LF) by apply sapp_assoc.
  assert (P : forall x y, Contains (join LF [x; y]) (x ++ LF)).
  { intros x y. exists "", y. unfold join. cbn [String.concat]. now rewrite sapp_assoc. }
  destruct Hin as [<-|[<-|[<-|[<-|[]]]]].
  - eapply Contains_trans; [apply (Contains_join_middle LF [] [_; _] [_; _; _]) | apply P].
  - eapply Contains_trans; [apply (Contains_join_middle LF [_] [_; _] [_; _]) | apply P].
  - eapply Contains_trans; [apply (Contains_join_middle LF [_; _] [_; _] [_]) | apply P].
  - eapply Contains_trans; [apply (Contains_join_middle LF [_; _; _] [_; _] []) | apply P].
Qed.

Lemma len_positive {A : Type} (arr : list A) : arr <> [] -> (len arr >? 0)%Z = true.
Proof.
  intros H. destruct arr; [congruence|]. unfold len. simpl List.length.
  apply Z.gtb_lt. lia.
Qed.

End SummarySize.

(** X13.  However long the messages are, a summary line grows by at most 22
    characters for each violation: a space, at most 20 characters of the
    message, and a comma. *)
Theorem summary_length_bound (label : string) (violations : list Violation) :
  String.length (getSummary label violations)
  <= String.length (numberToString (len violations)) + String.length label + 3
     + 22 * List.length violations.
Proof.
  rewrite getSummary_format, !slength_app.
  assert (B := join_length_bound "," 21
                 (map (fun x => " " ++ truncate (message x) 20) violations)).
  rewrite length_map in B. simpl String.length in *.
  assert (F : Forall (fun x => String.length x <= 21)
                (map (fun x => " " ++ truncate (message x) 20) violations)).
  { apply Forall_forall. intros e He. apply in_map_iff in He.
    destruct He as [v [<- _]]. simpl. pose proof (truncate_20_length (message v)). lia. }
  specialize (B F). lia.
Qed.

(** X14.  Every failure and every warning is listed in the hidden comment
    of both bodies by its message truncated to 20, after a space. *)
Theorem summary_lists_failures_and_warnings (dangerID : string) (results : DangerResults)
        (commitID : option string) (file : string) (line : Z) (violation : Violation) :
  In violation (fails results) \/ In violation (warnings results) ->
  Contains (template dangerID results commitID) (" " ++ truncate (message violation) 20) /\
  Contains (inlineTemplate dangerID results file line)
           (" " ++ truncate (message violation) 20).
Proof.
  intros Hin.
  assert (S : Contains (buildSummaryMessage dangerID results)
                (" " ++ truncate (message violation) 20)).
  { destruct Hin as [Hin|Hin].
    - apply Contains_trans with (b := "  " ++ getSummary "failure" (fails results) ++ LF).
      + apply buildSummaryMessage_contains_line. left. reflexivity.
      + apply Contains_app_l, Contains_app_r. now apply summary_contains_entry.
    - apply Contains_trans with (b := "  " ++ getSummary "warning" (warnings results) ++ LF).
      + apply buildSummaryMessage_contains_line. right. left. reflexivity.
      + apply Contains_app_l, Contains_app_r. now apply summary_contains_entry. }
  split.
  - eapply Contains_trans; [apply template_contains_summary | exact S].
  - eapply Contains_trans; [apply inlineTemplate_contains_summary | exact S].
Qed.

Lemma summary_lists_failures_and_warnings_witness :
  (In useX (fails oneOfEach) \/ In useX (warnings oneOfEach)) /\
  Contains (template "42" oneOfEach None) " use `x` instead" /\
  truncate (message useX) 20 = "use `x` instead".
Proof.
  assert (H : In useX (fails oneOfEach) \/ In useX (warnings oneOfEach))
    by (right; left; reflexivity).
  split; [exact H|]. split; [|reflexivity].
  exact (proj1 (summary_lists_failures_and_warnings "42" oneOfEach None "a.ts" 3 useX H)).
Defined.

(** X15.  When there are messages, the hidden comment of both bodies has the
    line of their count followed by the word messages; when there are
    markdown entries, it has the line of their count followed by the words
    markdown notices.  The words are the same for a count of one. *)
Theorem summary_counts_messages_and_markdowns (dangerID : string) (results : DangerResults)
        (commitID : option string) (file : string) (line : Z) :
  (messages results <> [] ->
   Contains (template dangerID results commitID)
            ("  " ++ (numberToString (len (messages results)) ++ " messages") ++ LF) /\
   Contains (inlineTemplate dangerID results file line)
            ("  " ++ (numberToString (len (messages results)) ++ " messages") ++ LF)) /\
  (markdowns results <> [] ->
   Contains (template dangerID results commitID)
            ("  " ++ (numberToString (len (markdowns results)) ++ " markdown notices") ++ LF) /\
   Contains (inlineTemplate dangerID results file line)
            ("  " ++ (numberToString (len (markdowns results)) ++ " markdown notices") ++ LF)).
Proof.
  split; intros Hne.
  - assert (S : Contains (buildSummaryMessage dangerID results)
                  ("  " ++ (numberToString (len (messages results)) ++ " messages") ++ LF)).
    { apply buildSummaryMessage_contains_line.
      rewrite (len_positive (messages results) Hne). do 2 right. left. reflexivity. }
    split.
    + eapply Contains_trans; [apply template_contains_summary | exact S].
    + eapply Contains_trans; [apply inlineTemplate_contains_summary | exact S].
  - assert (S : Contains (buildSummaryMessage dangerID results)
                  ("  " ++ (numberToString (len (markdowns results)) ++ " markdown notices")
                        ++ LF)).
    { apply buildSummaryMessage_contains_line.
      rewrite (len_positive (markdowns results) Hne). do 3 right. left. reflexivity. }
    split.
    + eapply Contains_trans; [apply template_contains_summary | exact S].
    + eapply Contains_trans; [apply inlineTemplate_contains_summary | exact S].
Qed.

Lemma summary_counts_messages_and_markdowns_witness :
  messages oneOfEach <> [] /\ markdowns oneOfEach <> [] /\
  Contains (template "42" oneOfEach None) ("  1 messages" ++ LF) /\
  Contains (template "42" oneOfEach None) ("  1 markdown notices" ++ LF).
Proof.
  assert (H1 : messages oneOfEach <> []) by discriminate.
  assert (H2 : markdowns oneOfEach <> []) by discriminate.
  destruct (summary_counts_messages_and_markdowns "42" oneOfEach None "a.ts" 3) as [A B].
  split; [exact H1|]. split; [exact H2|]. split.
  - exact (proj1 (A H1)).
  - exact (proj1 (B H2)).
Defined.

(** ** The order of the rows and of the bullets *)

(** X16.  Rows and bullets keep the order of the list: two violations that
    follow one another in a list have, in the issue body, rows that follow
    one another with a line feed between them (when the table is shown) and,
    in the inline body, bullets on consecutive lines. *)
Theorem order_is_kept (dangerID : string) (results : DangerResults)
        (commitID : option string) (file : string) (line : Z)
        (name defaultEmoji : string) (violations before after : list Violation)
        (first second : Violation) :
  In (name, defaultEmoji, violations) (categories results) ->
  violations = (before ++ [first; second] ++ after)%list ->
  Contains (inlineTemplate dangerID results file line)
           (printViolation defaultEmoji first ++ LF ++ printViolation defaultEmoji second) /\
  ((exists v, In v violations /\ message v <> "") ->
   Contains (template dangerID results commitID)
            (htmlForValidation defaultEmoji first ++ LF
               ++ htmlForValidation defaultEmoji second)).
Proof.
  intros Hcat Hsplit. split.
  - apply Contains_trans
      with (b := join LF (map (printViolation defaultEmoji) violations)).
    + unfold inlineTemplate, lines.
      eapply Contains_join; [|apply Contains_refl].
      destruct Hcat as [E|[E|[E|[]]]]; injection E as <- <- <-;
        repeat first [left; reflexivity | right].
    + rewrite Hsplit, !map_app.
      apply (Contains_join_middle LF _
               (map (printViolation defaultEmoji) [first; second])).
  - intros [v [Hin Hne]].
    apply Contains_trans with (b := table name defaultEmoji violations);
      [now apply template_contains_table|].
    rewrite table_shown by (now apply shown_of_nonempty with v).
    unfold lines. eapply Contains_join.
    + do 8 right. left. reflexivity.
    + apply Contains_app_l, Contains_app_r.
      rewrite Hsplit, !map_app.
      apply (Contains_join_middle LF _
               (map (htmlForValidation defaultEmoji) [first; second])).
Qed.

Lemma order_is_kept_witness :
  In ("Fails", "no_entry_sign", [shownViolation; emptyViolation])
     (categories (mkResults [shownViolation; emptyViolation] [] [] [] None)) /\
  [shownViolation; emptyViolation] = ([] ++ [shownViolation; emptyViolation] ++ [])%list /\
  Contains (inlineTemplate "42" (mkResults [shownViolation; emptyViolation] [] [] [] None)
              "a.ts" 3)
           ("- :no_entry_sign: shown" ++ LF ++ "- :no_entry_sign: ").
Proof.
  assert (H1 : In ("Fails", "no_entry_sign", [shownViolation; emptyViolation])
                 (categories (mkResults [shownViolation; emptyViolation] [] [] [] None)))
    by (left; reflexivity).
  split; [exact H1|]. split; [reflexivity|].
  exact (proj1 (order_is_kept "42" (mkResults [shownViolation; emptyViolation] [] [] [] None)
                  None "a.ts" 3 "Fails" "no_entry_sign" _ [] [] shownViolation emptyViolation
                  H1 eq_refl)).
Defined.

(** ** Rows and counts of a list that has a message to show *)

Section RowsAndCounts.

(** A line that is neither the first nor the last of a text stands in it
    between two line feeds. *)
Lemma Contains_whole_line (sep x : string) (front back : list string) :
  front <> [] -> back <> [] ->
  Contains (join sep (front ++ x :: back)) (sep ++ x ++ sep).
Proof.
  intros Hf Hb. rewrite join_app by (assumption || discriminate).
  apply Contains_app_l.
  change (x :: back) with ([x] ++ back)%list.
  rewrite join_app by (assumption || discriminate).
  exists "", (join sep back). unfold join at 1. cbn [String.concat].
  simpl. now rewrite !sapp_assoc.
Qed.

(** The issue body opens with the hidden comment: each of its lines, with
    the counts and the entries written out. *)
Lemma template_hidden_comment (dangerID : string) (results : DangerResults)
      (commitID : option string) :
  template dangerID results commitID =
  lines
    [ "";
      "<!--";
      "  " ++ numberToString (len (fails results)) ++ " failure: "
        ++ join "," (map (fun x => " " ++ truncate (message x) 20) (fails results));
      "  " ++ numberToString (len (warnings results)) ++ " warning: "
        ++ join "," (map (fun x => " " ++ truncate (message x) 20) (warnings results));
      "  " ++ (if (len (messages results) >? 0)%Z
               then numberToString (len (messages results)) ++ " messages" else "");
      "  " ++ (if (len (markdowns results) >? 0)%Z
               then numberToString (len (markdowns results)) ++ " markdown notices" else "");
      "  DangerID: danger-id-" ++ dangerID ++ ";";
      "-->";
      table "Fails" "no_entry_sign" (fails results);
      table "Warnings" "warning" (warnings results);
      table "Messages" "book" (messages results);
      join (LF ++ LF) (map (fun v => message v) (markdowns results));
      "<p align=" ++ quoted "right" ++ ">";
      "  " ++ dangerSignaturePostfix results commitID;
      "</p>";
      "" ].
Proof.
  unfold template, buildSummaryMessage, dangerIDToString.
  rewrite !getSummary_format.
  generalize (join "," (map (fun x => " " ++ truncate (message x) 20) (fails results))).
  generalize (join "," (map (fun x => " " ++ truncate (message x) 20) (warnings results))).
  generalize (table "Fails" "no_entry_sign" (fails results)).
  generalize (table "Warnings" "warning" (warnings results)).
  generalize (table "Messages" "book" (messages results)).
  generalize (join (LF ++ LF) (map (fun v => message v) (markdowns results))).
  generalize (dangerSignaturePostfix results commitID).
  generalize (if (len (messages results) >? 0)%Z
              then numberToString (len (messages results)) ++ " messages" else "").
  generalize (if (len (markdowns results) >? 0)%Z
              then numberToString (len (markdowns results)) ++ " markdown notices" else "").
  generalize (numberToString (len (fails results))).
  generalize (numberToString (len (warnings results))).
  intros nw nf mdl ml sig md tm tw tf sw sf.
  unfold lines, join. simpl. repeat (rewrite sapp_assoc; simpl). reflexivity.
Qed.

End RowsAndCounts.

(** C4, as the code has it.  When a list holds a violation with a message,
    its table has one row for each violation of the list, in the order of
    the list, those with an empty message included; and the count that
    opens the summary line of the list is the length of the whole list.  In
    the issue body, the rows of all the violations of a tabulated list
    occur, and the hidden comment counts the whole list: the line of the
    failures and the line of the warnings open with the length of their
    list, and the line of the messages is the length of the list of messages
    followed by the word messages. *)
Theorem every_violation_has_a_row (name defaultEmoji label : string)
        (violations : list Violation) :
  (exists v, In v violations /\ message v <> "") ->
  table name defaultEmoji violations =
  lines
    [ "";
      "<table>";
      "  <thead>";
      "    <tr>";
      "      <th width=" ++ quoted "50" ++ "></th>";
      "      <th width=" ++ quoted "100%" ++ " data-danger-table=" ++ quoted "true"
        ++ ">" ++ name ++ "</th>";
      "    </tr>";
      "  </thead>";
      "  <tbody>" ++ join LF (map (htmlForValidation defaultEmoji) violations) ++ "</tbody>";
      "</table>";
      "" ] /\
  List.length (map (htmlForValidation defaultEmoji) violations) = List.length violations /\
  (forall v, In v violations ->
             Contains (table name defaultEmoji violations) (htmlForValidation defaultEmoji v)) /\
  getSummary label violations =
  numberToString (len violations) ++ " " ++ label ++ ": "
    ++ join "," (map (fun x => " " ++ truncate (message x) 20) violations) /\
  (forall dangerID results commitID,
     In (name, defaultEmoji, violations) (categories results) ->
     (forall v, In v violations ->
                Contains (template dangerID results commitID)
                         (htmlForValidation defaultEmoji v)) /\
     template dangerID results commitID =
     lines
       [ "";
         "<!--";
         "  " ++ numberToString (len (fails results)) ++ " failure: "
           ++ join "," (map (fun x => " " ++ truncate (message x) 20) (fails results));
         "  " ++ numberToString (len (warnings results)) ++ " warning: "
           ++ join "," (map (fun x => " " ++ truncate (message x) 20) (warnings results));
         "  " ++ (if (len (messages results) >? 0)%Z
                  then numberToString (len (messages results)) ++ " messages" else "");
         "  " ++ (if (len (markdowns results) >? 0)%Z
                  then numberToString (len (markdowns results)) ++ " markdown notices"
                  else "");
         "  DangerID: danger-id-" ++ dangerID ++ ";";
         "-->";
         table "Fails" "no_entry_sign" (fails results);
         table "Warnings" "warning" (warnings results);
         table "Messages" "book" (messages results);
         join (LF ++ LF) (map (fun v => message v) (markdowns results));
         "<p align=" ++ quoted "right" ++ ">";
         "  " ++ dangerSignaturePostfix results commitID;
         "</p>";
         "" ] /\
     (name = "Fails" ->
      Contains (template dangerID results commitID)
               (LF ++ ("  " ++ numberToString (len violations) ++ " failure: "
                            ++ join "," (map (fun x => " " ++ truncate (message x) 20)
                                             violations))
                   ++ LF)) /\
     (name = "Warnings" ->
      Contains (template dangerID results commitID)
               (LF ++ ("  " ++ numberToString (len violations) ++ " warning: "
                            ++ join "," (map (fun x => " " ++ truncate (message x) 20)
                                             violations))
                   ++ LF)) /\
     (name = "Messages" ->
      Contains (template dangerID results commitID)
               (LF ++ ("  " ++ (numberToString (len violations) ++ " messages")) ++ LF))).
Proof.
  intros [v [Hin Hne]].
  assert (Hshown := shown_of_nonempty violations v Hin Hne).
  split; [now apply table_shown|]. split; [apply length_map|]. split.
  { intros w Hw. now apply table_contains_row. }
  split; [apply getSummary_format|].
  intros dangerID results commitID Hcat. split.
  { intros w Hw.
    apply Contains_trans with (b := table name defaultEmoji violations).
    - now apply template_contains_table.
    - now apply table_contains_row. }
  split; [apply template_hidden_comment|].
  rewrite template_hidden_comment. unfold lines.
  destruct Hcat as [E|[E|[E|[]]]]; injection E as <- <- <-;
    (split; [|split]); intros Hname; try discriminate Hname.
  - apply (Contains_whole_line LF _ [_; _] (_ :: _)); discriminate.
  - apply (Contains_whole_line LF _ [_; _; _] (_ :: _)); discriminate.
  - assert (Hmsgs : messages results <> []) by (intros E; rewrite E in Hin; destruct Hin).
    rewrite (len_positive (messages results) Hmsgs).
    apply (Contains_whole_line LF _ [_; _; _; _] (_ :: _)); discriminate.
Qed.

Lemma every_violation_has_a_row_witness :
  (exists v, In v [shownViolation; emptyViolation] /\ message v <> "") /\
  Contains (table "Fails" "no_entry_sign" [shownViolation; emptyViolation])
           (htmlForValidation "no_entry_sign" emptyViolation) /\
  getSummary "failure" [shownViolation; emptyViolation] = "2 failure:  shown, " /\
  Contains (template "42" twoFailures None) (LF ++ "  2 failure:  shown, " ++ LF).
Proof.
  assert (H : exists v, In v [shownViolation; emptyViolation] /\ message v <> "").
  { exists shownViolation. split; [left; reflexivity | discriminate]. }
  split; [exact H|].
  destruct (every_violation_has_a_row "Fails" "no_entry_sign" "failure"
              [shownViolation; emptyViolation] H) as (_ & _ & Hrows & Hsum & Hbody).
  split; [|split].
  - apply Hrows. right. left. reflexivity.
  - rewrite Hsum. reflexivity.
  - destruct (Hbody "42" twoFailures None (or_introl eq_refl)) as (_ & _ & Hfails & _).
    exact (Hfails eq_refl).
Defined.
